(** * Container component definitions of google_cloud_pipeline_components.v1

    A shallow embedding of the four component definitions

      - [v1/bigquery/query_job/component.py]
      - [v1/bigquery/explain_forecast_model/component.py]
      - [v1/bigquery/export_model/component.py]
      - [v1/wait_gcp_resources/component.py]

    Each of them is a Python function whose body is a single
    [return ContainerSpec(image=..., command=[...], args=[...])].  The
    values that flow through it are dynamically typed, so the embedding
    works over one type of Python values; the [def] lines are kept as
    parameter tables and a call is the binding of keyword arguments against
    such a table followed by the body.  The list and dict objects that the
    [def] lines create as defaults are kept in a store, for the properties
    that depend on what they hold. *)

From Stdlib Require Import String Ascii List ZArith Floats.PrimFloat.
From stdpp Require Import gmap strings list fin_maps.

Set Warnings "-inexact-float,-register-all".

(** ** Values of the pipeline DSL *)

Module Dsl.

(** The Python values the component functions receive and emit: strings,
    numbers, lists, insertion-ordered dicts, artifact handles, and the DSL's
    [ConcatPlaceholder] wrapping a list of items. *)
Inductive pyval : Type :=
| PStr (s : string)
| PInt (n : Z)
| PFloat (x : float)
| PList (items : list pyval)
| PDict (entries : list (string * pyval))
| PArtifact (type_name uri : string) (metadata : list (string * pyval))
| ConcatPlaceholder (items : list pyval).

Coercion PStr : string >-> pyval.

(** [ContainerSpec(image=, command=, args=)]. *)
Record ContainerSpec : Type := {
  image : string;
  command : list pyval;
  args : list pyval
}.

(** The double-quote character, and a string between double quotes. *)
Definition dquote : string :=
  String (Ascii false true false false false true false false) EmptyString.

Definition quoted (s : string) : string := dquote +:+ s +:+ dquote.

(** The argument list is read by the launcher as flag/value pairs: the
    flags are the elements at positions 0, 2, 4, ... and each is followed
    by its value. *)
Fixpoint flags_of (l : list pyval) : list pyval :=
  match l with
  | f :: _ :: rest => f :: flags_of rest
  | l' => l'
  end.

Fixpoint values_of (l : list pyval) : list pyval :=
  match l with
  | _ :: v :: rest => v :: values_of rest
  | _ => []
  end.

(** The value that immediately follows the flag [flag]: flags are looked
    for at flag positions only, so that a parameter value that happens to
    spell a flag name is not mistaken for one. *)
Fixpoint arg_after (flag : string) (l : list pyval) : option pyval :=
  match l with
  | PStr s :: v :: rest =>
      if String.eqb s flag then Some v else arg_after flag rest
  | _ :: _ :: rest => arg_after flag rest
  | _ => None
  end.

(** What the host orchestrator hands to the launcher for one argument: a
    string stands for itself, a [ConcatPlaceholder] for the concatenation
    of its items, and any other value for its serialisation, which is the
    orchestrator's business and is left open here. *)
Section Resolve.
Variable serialize : pyval -> string.

Fixpoint resolve (v : pyval) : string :=
  match v with
  | PStr s => s
  | ConcatPlaceholder items =>
      foldr (fun item acc => resolve item +:+ acc) EmptyString items
  | other => serialize other
  end.
End Resolve.

End Dsl.

Import Dsl.

(** ** Calling a Python function by keyword *)

Module PyCall.

(** The annotations that occur in the four [def] lines. *)
Inductive annotation : Type :=
| TStr
| TInt
| TFloat
| TList (elt : annotation)
| TDict (key val : annotation)
| TInput (artifact : string)
| TOutput (artifact : string)
| TOutputPath (t : annotation).

(** One parameter of a [def]: its name, its annotation and its default
    value, if it declares one. *)
Record param : Type := {
  pname : string;
  pannot : annotation;
  pdefault : option pyval
}.

Definition required (name : string) (a : annotation) : param :=
  {| pname := name; pannot := a; pdefault := None |}.

Definition optional (name : string) (a : annotation) (d : pyval) : param :=
  {| pname := name; pannot := a; pdefault := Some d |}.

Definition has_default (p : param) : bool :=
  match pdefault p with Some _ => true | None => false end.

(** A call either returns or raises the [TypeError] of Python's argument
    binding. *)
Inductive result (A : Type) : Type :=
| Ok (a : A)
| TypeError (msg : string).

Arguments Ok {A} a.
Arguments TypeError {A} msg.

#[global] Instance result_ret : MRet result := fun _ a => Ok a.

#[global] Instance result_bind : MBind result := fun _ _ f m =>
  match m with
  | Ok a => f a
  | TypeError msg => TypeError msg
  end.

Definition names (ps : list param) : list string := pname <$> ps.

Definition default_of (ps : list param) (name : string) : option pyval :=
  p ← List.find (fun p => String.eqb (pname p) name) ps; pdefault p.

(** Every keyword supplied names a declared parameter. *)
Definition only_declared (ps : list param) (kw : gmap string pyval) : bool :=
  bool_decide (dom kw ⊆ list_to_set (names ps)).

(** Every parameter without a default is supplied. *)
Definition supplies_required (ps : list param) (kw : gmap string pyval) : bool :=
  forallb (fun p => has_default p || bool_decide (is_Some (kw !! pname p))) ps.

Definition accepts (ps : list param) (kw : gmap string pyval) : bool :=
  only_declared ps kw && supplies_required ps kw.

Definition check_keywords (ps : list param) (kw : gmap string pyval) : result unit :=
  if only_declared ps kw then Ok tt
  else TypeError "got an unexpected keyword argument".

(** The value a parameter is bound to: the keyword argument if supplied,
    else the declared default, else the call fails. *)
Definition bind_arg (ps : list param) (kw : gmap string pyval) (name : string)
  : result pyval :=
  match kw !! name with
  | Some v => Ok v
  | None =>
      match default_of ps name with
      | Some d => Ok d
      | None => TypeError ("missing required argument: " +:+ name)
      end
  end.

End PyCall.

Import PyCall.

(** ** The four component definitions *)

(** *** v1/bigquery/query_job/component.py *)

Definition bigquery_query_job_params : list param :=
  [ required "project" TStr;
    required "destination_table" (TOutput "BQTable");
    required "gcp_resources" (TOutputPath TStr);
    optional "query" TStr EmptyString;
    optional "location" TStr "us-central1";
    optional "query_parameters" (TList TStr) (PList []);
    optional "job_configuration_query" (TDict TStr TStr) (PDict []);
    optional "labels" (TDict TStr TStr) (PDict []);
    optional "encryption_spec_key_name" TStr EmptyString ].

Definition bigquery_query_job
    (project destination_table gcp_resources query location query_parameters
     job_configuration_query labels encryption_spec_key_name : pyval)
  : ContainerSpec :=
  {| image := "gcr.io/ml-pipeline/google-cloud-pipeline-components:latest";
     command :=
       [ PStr "python3"; PStr "-u"; PStr "-m";
         PStr "google_cloud_pipeline_components.container.v1.bigquery.query_job.launcher" ];
     args :=
       [ PStr "--type";
         PStr "BigqueryQueryJob";
         PStr "--project";
         project;
         PStr "--location";
         location;
         PStr "--payload";
         ConcatPlaceholder
           [ PStr "{"; PStr (quoted "configuration" +:+ ": {");
             PStr (quoted "query" +:+ ": "); job_configuration_query;
             PStr (", " +:+ quoted "labels" +:+ ": "); labels; PStr "}"; PStr "}" ];
         PStr "--job_configuration_query_override";
         ConcatPlaceholder
           [ PStr "{"; PStr (quoted "query" +:+ ": " +:+ dquote); query;
             PStr dquote; PStr (", " +:+ quoted "query_parameters" +:+ ": ");
             query_parameters;
             PStr (", " +:+ quoted "destination_encryption_configuration" +:+ ": {");
             PStr (quoted "kmsKeyName" +:+ ": " +:+ dquote);
             encryption_spec_key_name; PStr (dquote +:+ "}"); PStr "}" ];
         PStr "--gcp_resources";
         gcp_resources;
         PStr "--executor_input";
         PStr "{{$}}" ] |}.

Definition call_bigquery_query_job (kw : gmap string pyval)
  : result ContainerSpec :=
  let ps := bigquery_query_job_params in
  _ ← check_keywords ps kw;
  project ← bind_arg ps kw "project";
  destination_table ← bind_arg ps kw "destination_table";
  gcp_resources ← bind_arg ps kw "gcp_resources";
  query ← bind_arg ps kw "query";
  location ← bind_arg ps kw "location";
  query_parameters ← bind_arg ps kw "query_parameters";
  job_configuration_query ← bind_arg ps kw "job_configuration_query";
  labels ← bind_arg ps kw "labels";
  encryption_spec_key_name ← bind_arg ps kw "encryption_spec_key_name";
  mret (bigquery_query_job project destination_table gcp_resources query
          location query_parameters job_configuration_query labels
          encryption_spec_key_name).

(** *** v1/bigquery/explain_forecast_model/component.py *)

Definition bigquery_explain_forecast_model_job_params : list param :=
  [ required "project" TStr;
    required "model" (TInput "BQMLModel");
    required "destination_table" (TOutput "BQTable");
    required "gcp_resources" (TOutputPath TStr);
    optional "location" TStr "us-central1";
    optional "horizon" TInt (PInt 3);
    optional "confidence_level" TFloat (PFloat 0.95);
    optional "query_parameters" (TList TStr) (PList []);
    optional "job_configuration_query" (TDict TStr TStr) (PDict []);
    optional "labels" (TDict TStr TStr) (PDict []);
    optional "encryption_spec_key_name" TStr EmptyString ].

Definition bigquery_explain_forecast_model_job
    (project model destination_table gcp_resources location horizon
     confidence_level query_parameters job_configuration_query labels
     encryption_spec_key_name : pyval)
  : ContainerSpec :=
  {| image := "gcr.io/ml-pipeline/google-cloud-pipeline-components:latest";
     command :=
       [ PStr "python3"; PStr "-u"; PStr "-m";
         PStr "google_cloud_pipeline_components.container.v1.bigquery.explain_forecast_model.launcher" ];
     args :=
       [ PStr "--type";
         PStr "BigqueryExplainForecastModelJob";
         PStr "--project";
         project;
         PStr "--location";
         location;
         PStr "--model_name";
         ConcatPlaceholder
           [ PStr "{{$.inputs.artifacts['model'].metadata['projectId']}}"; PStr ".";
             PStr "{{$.inputs.artifacts['model'].metadata['datasetId']}}"; PStr ".";
             PStr "{{$.inputs.artifacts['model'].metadata['modelId']}}" ];
         PStr "--horizon";
         horizon;
         PStr "--confidence_level";
         confidence_level;
         PStr "--payload";
         ConcatPlaceholder
           [ PStr "{"; PStr (quoted "configuration" +:+ ": {");
             PStr (quoted "query" +:+ ": "); job_configuration_query;
             PStr (", " +:+ quoted "labels" +:+ ": "); labels; PStr "}"; PStr "}" ];
         PStr "--job_configuration_query_override";
         ConcatPlaceholder
           [ PStr "{"; PStr (quoted "query_parameters" +:+ ": "); query_parameters;
             PStr (", " +:+ quoted "destination_encryption_configuration" +:+ ": {");
             PStr (quoted "kmsKeyName" +:+ ": " +:+ dquote);
             encryption_spec_key_name; PStr (dquote +:+ "}"); PStr "}" ];
         PStr "--gcp_resources";
         gcp_resources;
         PStr "--executor_input";
         PStr "{{$}}" ] |}.

Definition call_bigquery_explain_forecast_model_job (kw : gmap string pyval)
  : result ContainerSpec :=
  let ps := bigquery_explain_forecast_model_job_params in
  _ ← check_keywords ps kw;
  project ← bind_arg ps kw "project";
  model ← bind_arg ps kw "model";
  destination_table ← bind_arg ps kw "destination_table";
  gcp_resources ← bind_arg ps kw "gcp_resources";
  location ← bind_arg ps kw "location";
  horizon ← bind_arg ps kw "horizon";
  confidence_level ← bind_arg ps kw "confidence_level";
  query_parameters ← bind_arg ps kw "query_parameters";
  job_configuration_query ← bind_arg ps kw "job_configuration_query";
  labels ← bind_arg ps kw "labels";
  encryption_spec_key_name ← bind_arg ps kw "encryption_spec_key_name";
  mret (bigquery_explain_forecast_model_job project model destination_table
          gcp_resources location horizon confidence_level query_parameters
          job_configuration_query labels encryption_spec_key_name).

(** *** v1/bigquery/export_model/component.py *)

Definition bigquery_export_model_job_params : list param :=
  [ required "project" TStr;
    required "model" (TInput "BQMLModel");
    required "model_destination_path" TStr;
    required "exported_model_path" (TOutputPath TStr);
    required "gcp_resources" (TOutputPath TStr);
    optional "location" TStr "us-central1";
    optional "job_configuration_extract" (TDict TStr TStr) (PDict []);
    optional "labels" (TDict TStr TStr) (PDict []) ].

Definition bigquery_export_model_job
    (project model model_destination_path exported_model_path gcp_resources
     location job_configuration_extract labels : pyval)
  : ContainerSpec :=
  {| image := "gcr.io/ml-pipeline/google-cloud-pipeline-components:latest";
     command :=
       [ PStr "python3"; PStr "-u"; PStr "-m";
         PStr "google_cloud_pipeline_components.container.v1.bigquery.export_model.launcher" ];
     args :=
       [ PStr "--type";
         PStr "BigqueryExportModelJob";
         PStr "--project";
         project;
         PStr "--location";
         location;
         PStr "--model_name";
         ConcatPlaceholder
           [ PStr "{{$.inputs.artifacts['model'].metadata['projectId']}}"; PStr ".";
             PStr "{{$.inputs.artifacts['model'].metadata['datasetId']}}"; PStr ".";
             PStr "{{$.inputs.artifacts['model'].metadata['modelId']}}" ];
         PStr "--model_destination_path";
         model_destination_path;
         PStr "--payload";
         ConcatPlaceholder
           [ PStr "{"; PStr (quoted "configuration" +:+ ": {");
             PStr (quoted "query" +:+ ": "); job_configuration_extract;
             PStr (", " +:+ quoted "labels" +:+ ": "); labels; PStr "}"; PStr "}" ];
         PStr "--exported_model_path";
         exported_model_path;
         PStr "--gcp_resources";
         gcp_resources;
         PStr "--executor_input";
         PStr "{{$}}" ] |}.

Definition call_bigquery_export_model_job (kw : gmap string pyval)
  : result ContainerSpec :=
  let ps := bigquery_export_model_job_params in
  _ ← check_keywords ps kw;
  project ← bind_arg ps kw "project";
  model ← bind_arg ps kw "model";
  model_destination_path ← bind_arg ps kw "model_destination_path";
  exported_model_path ← bind_arg ps kw "exported_model_path";
  gcp_resources ← bind_arg ps kw "gcp_resources";
  location ← bind_arg ps kw "location";
  job_configuration_extract ← bind_arg ps kw "job_configuration_extract";
  labels ← bind_arg ps kw "labels";
  mret (bigquery_export_model_job project model model_destination_path
          exported_model_path gcp_resources location job_configuration_extract
          labels).

(** *** v1/wait_gcp_resources/component.py *)

Definition wait_gcp_resources_params : list param :=
  [ required "input_gcp_resources" TStr;
    required "gcp_resources" (TOutputPath TStr) ].

Definition wait_gcp_resources (input_gcp_resources gcp_resources : pyval)
  : ContainerSpec :=
  {| image := "gcr.io/ml-pipeline/google-cloud-pipeline-components:latest";
     command :=
       [ PStr "python3"; PStr "-u"; PStr "-m";
         PStr "google_cloud_pipeline_components.container.v1.wait_gcp_resources.launcher" ];
     args :=
       [ PStr "--type";
         PStr "Wait";
         PStr "--project";
         PStr EmptyString;
         PStr "--location";
         PStr EmptyString;
         PStr "--payload";
         input_gcp_resources;
         PStr "--gcp_resources";
         gcp_resources ] |}.

Definition call_wait_gcp_resources (kw : gmap string pyval)
  : result ContainerSpec :=
  let ps := wait_gcp_resources_params in
  _ ← check_keywords ps kw;
  input_gcp_resources ← bind_arg ps kw "input_gcp_resources";
  gcp_resources ← bind_arg ps kw "gcp_resources";
  mret (wait_gcp_resources input_gcp_resources gcp_resources).

(** *** The four definitions side by side *)

(** A component as the pipeline sees it: the parameter table of its [def]
    and the function called by keyword. *)
Record component : Type := {
  cname : string;
  cparams : list param;
  ccall : gmap string pyval -> result ContainerSpec
}.

Definition query_job : component :=
  {| cname := "bigquery_query_job";
     cparams := bigquery_query_job_params;
     ccall := call_bigquery_query_job |}.

Definition explain_forecast_model : component :=
  {| cname := "bigquery_explain_forecast_model_job";
     cparams := bigquery_explain_forecast_model_job_params;
     ccall := call_bigquery_explain_forecast_model_job |}.

Definition export_model : component :=
  {| cname := "bigquery_export_model_job";
     cparams := bigquery_export_model_job_params;
     ccall := call_bigquery_export_model_job |}.

Definition wait_gcp : component :=
  {| cname := "wait_gcp_resources";
     cparams := wait_gcp_resources_params;
     ccall := call_wait_gcp_resources |}.

Definition bigquery_components : list component :=
  [query_job; explain_forecast_model; export_model].

Definition components : list component :=
  bigquery_components ++ [wait_gcp].

(** A definition declares a default when some parameter of its [def] line
    carries one. *)
Definition declares_default (c : component) : bool :=
  existsb has_default (cparams c).

(** ** Vocabulary of the properties *)

(** [l] alternates the flags [flags] with their values: the flag positions
    hold exactly these literals, in this order, and there is one value per
    flag. *)
Definition alternates (flags : list string) (l : list pyval) : Prop :=
  flags_of l = PStr <$> flags ∧ length (values_of l) = length flags.

(** [l] ends with the two elements [flag], [value]. *)
Definition ends_with_pair (flag value : string) (l : list pyval) : Prop :=
  ∃ front, l = front ++ [PStr flag; PStr value].

(** The flag names of each argument vector, and the ones they share. *)
Definition bigquery_query_job_flags : list string :=
  [ "--type"; "--project"; "--location"; "--payload";
    "--job_configuration_query_override"; "--gcp_resources";
    "--executor_input" ].

Definition bigquery_explain_forecast_model_job_flags : list string :=
  [ "--type"; "--project"; "--location"; "--model_name"; "--horizon";
    "--confidence_level"; "--payload"; "--job_configuration_query_override";
    "--gcp_resources"; "--executor_input" ].

Definition bigquery_export_model_job_flags : list string :=
  [ "--type"; "--project"; "--location"; "--model_name";
    "--model_destination_path"; "--payload"; "--exported_model_path";
    "--gcp_resources"; "--executor_input" ].

Definition wait_gcp_resources_flags : list string :=
  [ "--type"; "--project"; "--location"; "--payload"; "--gcp_resources" ].

Definition common_flags : list string :=
  [ "--type"; "--project"; "--location"; "--payload"; "--gcp_resources" ].

(** The payload as the specification words it: the eight items, and the
    template they spell once concatenated. *)
Definition claimed_payload (config labels : pyval) : pyval :=
  ConcatPlaceholder
    [ PStr "{"; PStr (quoted "configuration" +:+ ": {");
      PStr (quoted "query" +:+ ": "); config;
      PStr (", " +:+ quoted "labels" +:+ ": "); labels; PStr "}"; PStr "}" ].

Definition claimed_payload_template (config labels : string) : string :=
  "{" +:+ quoted "configuration" +:+ ": {" +:+ quoted "query" +:+ ": "
    +:+ config +:+ ", " +:+ quoted "labels" +:+ ": " +:+ labels +:+ "}}".

(** The model name as the specification words it. *)
Definition claimed_model_name : pyval :=
  ConcatPlaceholder
    [ PStr "{{$.inputs.artifacts['model'].metadata['projectId']}}"; PStr ".";
      PStr "{{$.inputs.artifacts['model'].metadata['datasetId']}}"; PStr ".";
      PStr "{{$.inputs.artifacts['model'].metadata['modelId']}}" ].

(** What surrounds the query text in the override of [bigquery_query_job]:
    a literal before it, and after it a string made of literals and of the
    two other parameters of the override. *)
Definition override_before : list pyval :=
  [ PStr "{"; PStr (quoted "query" +:+ ": " +:+ dquote) ].

Definition override_after (query_parameters kms_key : pyval) : list pyval :=
  [ PStr dquote; PStr (", " +:+ quoted "query_parameters" +:+ ": ");
    query_parameters;
    PStr (", " +:+ quoted "destination_encryption_configuration" +:+ ": {");
    PStr (quoted "kmsKeyName" +:+ ": " +:+ dquote); kms_key;
    PStr (dquote +:+ "}"); PStr "}" ].

Definition override_prefix : string :=
  "{" +:+ quoted "query" +:+ ": " +:+ dquote.

Definition override_suffix (query_parameters kms_key : string) : string :=
  dquote +:+ ", " +:+ quoted "query_parameters" +:+ ": " +:+ query_parameters
    +:+ ", " +:+ quoted "destination_encryption_configuration" +:+ ": {"
    +:+ quoted "kmsKeyName" +:+ ": " +:+ dquote +:+ kms_key +:+ dquote +:+ "}}".

(** ** Sample inputs *)

(** Inputs made of empty strings, an empty list and empty dicts only. *)
Definition empty_inputs : gmap string pyval :=
  <["project" := PStr EmptyString]>
  (<["destination_table" := PArtifact "BQTable" EmptyString []]>
  (<["gcp_resources" := PStr EmptyString]>
  (<["query" := PStr EmptyString]>
  (<["location" := PStr EmptyString]>
  (<["query_parameters" := PList []]>
  (<["job_configuration_query" := PDict []]>
  (<["labels" := PDict []]>
  (<["encryption_spec_key_name" := PStr EmptyString]> ∅)))))))).

(** The two keyword arguments of [wait_gcp_resources]. *)
Definition wait_inputs : gmap string pyval :=
  <["input_gcp_resources" := PStr "{}"]>
  (<["gcp_resources" := PStr "/gcs/out/gcp_resources"]> ∅).

(** A call that leaves [location], and every other optional parameter,
    out. *)
Definition required_only : gmap string pyval :=
  <["project" := PStr "my-project"]>
  (<["model" := PArtifact "BQMLModel" "bq://my-project.ds.m" []]>
  (<["model_destination_path" := PStr "gs://bucket/model"]>
  (<["exported_model_path" := PStr "/gcs/out/exported_model_path"]>
  (<["gcp_resources" := PStr "/gcs/out/gcp_resources"]> ∅)))).

(** A query text with quotes and a backslash in it. *)
Definition quoting_query : string :=
  "SELECT " +:+ quoted "a\b" +:+ " FROM t WHERE c = 'x'".

(** ** Vocabulary of the further properties *)

(** The parameters handed to the launcher as they are, each with the flag
    it follows. *)
Definition passed_unchanged : list (component * string * string) :=
  [ (query_job, "--project", "project");
    (query_job, "--location", "location");
    (query_job, "--gcp_resources", "gcp_resources");
    (explain_forecast_model, "--project", "project");
    (explain_forecast_model, "--location", "location");
    (explain_forecast_model, "--horizon", "horizon");
    (explain_forecast_model, "--confidence_level", "confidence_level");
    (explain_forecast_model, "--gcp_resources", "gcp_resources");
    (export_model, "--project", "project");
    (export_model, "--location", "location");
    (export_model, "--model_destination_path", "model_destination_path");
    (export_model, "--exported_model_path", "exported_model_path");
    (export_model, "--gcp_resources", "gcp_resources");
    (wait_gcp, "--payload", "input_gcp_resources");
    (wait_gcp, "--gcp_resources", "gcp_resources") ].

(** The artifact parameters, none of which is mentioned in the body of its
    function. *)
Definition artifact_parameters : list (component * string) :=
  [ (query_job, "destination_table");
    (explain_forecast_model, "model");
    (explain_forecast_model, "destination_table");
    (export_model, "model") ].

(** What follows the opening brace of the override in
    [bigquery_explain_forecast_model_job], and the query field of
    [bigquery_query_job] in both. *)
Definition override_rest (query_parameters kms_key : string) : string :=
  quoted "query_parameters" +:+ ": " +:+ query_parameters
    +:+ ", " +:+ quoted "destination_encryption_configuration" +:+ ": {"
    +:+ quoted "kmsKeyName" +:+ ": " +:+ dquote +:+ kms_key +:+ dquote +:+ "}}".

(** The text between the query and the key name in the override of
    [bigquery_query_job], around the serialised query parameters. *)
Definition after_query : string :=
  dquote +:+ ", " +:+ quoted "query_parameters" +:+ ": ".

Definition before_key : string :=
  ", " +:+ quoted "destination_encryption_configuration" +:+ ": {"
    +:+ quoted "kmsKeyName" +:+ ": " +:+ dquote.

(** Keyword arguments for the required parameters of
    [bigquery_explain_forecast_model_job] and of [bigquery_query_job], and
    nothing else. *)
Definition explain_required (project model destination_table gcp_resources : pyval)
  : gmap string pyval :=
  <["project" := project]>
  (<["model" := model]>
  (<["destination_table" := destination_table]>
  (<["gcp_resources" := gcp_resources]> ∅))).

Definition query_required (project destination_table gcp_resources : pyval)
  : gmap string pyval :=
  <["project" := project]>
  (<["destination_table" := destination_table]>
  (<["gcp_resources" := gcp_resources]> ∅)).

Definition export_required
    (project model model_destination_path exported_model_path gcp_resources : pyval)
  : gmap string pyval :=
  <["project" := project]>
  (<["model" := model]>
  (<["model_destination_path" := model_destination_path]>
  (<["exported_model_path" := exported_model_path]>
  (<["gcp_resources" := gcp_resources]> ∅)))).

Definition sample_explain_inputs : gmap string pyval :=
  explain_required (PStr "my-project")
    (PArtifact "BQMLModel" "bq://my-project.ds.m" [])
    (PArtifact "BQTable" "bq://my-project.ds.t" [])
    (PStr "/gcs/out/gcp_resources").

(** ** Default objects *)

(** A [def] evaluates each default expression once.  A default written
    [= []] or [= {}] (query_parameters, job_configuration_query,
    job_configuration_extract, labels) is therefore one list or dict
    object per parameter and function, which every call that leaves the
    parameter out is bound to and which the returned specification holds.
    Objects are named by a location; a store gives their current
    contents.  The other defaults are strings and numbers, which nothing
    can change, and stay in the parameter tables. *)
Record funobj : Type := {
  fcomp : component;
  fdefaults : gmap string positive
}.

Definition bigquery_query_job_def : funobj :=
  {| fcomp := query_job;
     fdefaults :=
       <["query_parameters" := 1%positive]>
       (<["job_configuration_query" := 2%positive]>
       (<["labels" := 3%positive]> ∅)) |}.

Definition bigquery_explain_forecast_model_job_def : funobj :=
  {| fcomp := explain_forecast_model;
     fdefaults :=
       <["query_parameters" := 4%positive]>
       (<["job_configuration_query" := 5%positive]>
       (<["labels" := 6%positive]> ∅)) |}.

Definition bigquery_export_model_job_def : funobj :=
  {| fcomp := export_model;
     fdefaults :=
       <["job_configuration_extract" := 7%positive]>
       (<["labels" := 8%positive]> ∅) |}.

Definition wait_gcp_resources_def : funobj :=
  {| fcomp := wait_gcp; fdefaults := ∅ |}.

Definition function_objects : list funobj :=
  [ bigquery_query_job_def; bigquery_explain_forecast_model_job_def;
    bigquery_export_model_job_def; wait_gcp_resources_def ].

(** The store once the four modules are loaded. *)
Definition initial_store : gmap positive pyval :=
  <[1%positive := PList []]> (<[2%positive := PDict []]>
  (<[3%positive := PDict []]> (<[4%positive := PList []]>
  (<[5%positive := PDict []]> (<[6%positive := PDict []]>
  (<[7%positive := PDict []]> (<[8%positive := PDict []]> ∅))))))).

(** What the default objects of [f] hold in the store [σ]. *)
Definition defaults_now (f : funobj) (σ : gmap positive pyval)
  : gmap string pyval :=
  omap (fun l => σ !! l) (fdefaults f).

(** An invocation: a parameter left out whose default is an object is
    bound to that object, read here at its current contents; the body
    assigns to nothing, so the store is returned as it was. *)
Definition invoke (f : funobj) (σ : gmap positive pyval)
    (kw : gmap string pyval) : result ContainerSpec * gmap positive pyval :=
  (ccall (fcomp f) (kw ∪ defaults_now f σ), σ).

(** The specification returned for [kw] holds the object [l]. *)
Definition hands_out (f : funobj) (kw : gmap string pyval) (l : positive)
  : Prop :=
  ∃ name, fdefaults f !! name = Some l ∧ kw !! name = None.

(** [σ] has every default object of [f]. *)
Definition holds_defaults (f : funobj) (σ : gmap positive pyval) : Prop :=
  map_Forall (fun _ l => is_Some (σ !! l)) (fdefaults f).

(** The default objects of the parameters [kw] leaves out hold the same
    in [σ1] and [σ2]. *)
Definition agree_on_omitted (f : funobj) (kw : gmap string pyval)
    (σ1 σ2 : gmap positive pyval) : Prop :=
  map_Forall (fun name l => kw !! name = None → σ1 !! l = σ2 !! l)
    (fdefaults f).

(** The item [i] of the concatenation that follows [flag]. *)
Definition concat_item (flag : string) (i : nat) (spec : ContainerSpec)
  : option pyval :=
  match arg_after flag (args spec) with
  | Some (ConcatPlaceholder items) => items !! i
  | _ => None
  end.

(** Where the specification carries each parameter that is placed inside
    a concatenation: the flag, and the index of the item after it. *)
Definition carried_at : list (component * string * (string * nat)) :=
  [ (query_job, "query", ("--job_configuration_query_override", 2));
    (query_job, "query_parameters", ("--job_configuration_query_override", 5));
    (query_job, "encryption_spec_key_name",
       ("--job_configuration_query_override", 8));
    (query_job, "job_configuration_query", ("--payload", 3));
    (query_job, "labels", ("--payload", 5));
    (explain_forecast_model, "query_parameters",
       ("--job_configuration_query_override", 2));
    (explain_forecast_model, "encryption_spec_key_name",
       ("--job_configuration_query_override", 5));
    (explain_forecast_model, "job_configuration_query", ("--payload", 3));
    (explain_forecast_model, "labels", ("--payload", 5));
    (export_model, "job_configuration_extract", ("--payload", 3));
    (export_model, "labels", ("--payload", 5)) ].

(** What a caller may write into a labels dict it was handed; keyword
    arguments that leave the labels of [bigquery_query_job] out; and a
    store in which other default objects have been written to. *)
Definition labelled : pyval := PDict [("team", PStr "ml")].

Definition sample_query_inputs : gmap string pyval :=
  <["query_parameters" := PList [PStr "@day:DATE:2022-01-01"]]>
    (query_required (PStr "my-project")
       (PArtifact "BQTable" "bq://my-project.ds.t" [])
       (PStr "/gcs/out/gcp_resources")).

Definition written_elsewhere : gmap positive pyval :=
  <[1%positive := PList [PStr "stale"]]>
    (<[6%positive := labelled]> initial_store).

(** ** Keyword binding *)

Lemma bind_arg_supplied (ps : list param) (kw : gmap string pyval) name v :
  kw !! name = Some v → bind_arg ps kw name = Ok v.
Proof. intros E. unfold bind_arg. by rewrite E. Qed.

Lemma find_declared (ps : list param) (name : string) :
  name ∈ names ps →
  ∃ p, List.find (fun p => String.eqb (pname p) name) ps = Some p
       ∧ p ∈ ps ∧ pname p = name.
Proof.
  intros Hin. apply list_elem_of_fmap in Hin as (p0 & -> & Hp0).
  destruct (List.find _ ps) as [p|] eqn:F.
  - apply List.find_some in F as [Hp Heq].
    apply String.eqb_eq in Heq. apply list_elem_of_In in Hp. eauto.
  - apply list_elem_of_In in Hp0.
    apply (List.find_none _ _ F) in Hp0. by rewrite String.eqb_refl in Hp0.
Qed.

(** Binding a declared parameter succeeds once every parameter without a
    default is supplied. *)
Lemma bind_arg_accepted (ps : list param) (kw : gmap string pyval) name :
  supplies_required ps kw = true → name ∈ names ps →
  ∃ v, bind_arg ps kw name = Ok v.
Proof.
  intros Hreq Hin. unfold bind_arg.
  destruct (kw !! name) as [v|] eqn:E; [by eauto|].
  destruct (find_declared ps name Hin) as (p & F & Hp & Hname).
  unfold default_of. rewrite F. simpl.
  unfold supplies_required in Hreq. rewrite forallb_forall in Hreq.
  apply list_elem_of_In in Hp. specialize (Hreq p Hp).
  rewrite Hname, E in Hreq. unfold has_default in Hreq.
  destruct (pdefault p) as [d|]; [by eauto|].
  apply orb_prop in Hreq as [Hreq|Hreq]; [discriminate|].
  apply bool_decide_eq_true in Hreq. by destruct Hreq.
Qed.

(** An omitted parameter is bound to the default of its declaration. *)
Lemma bind_arg_omitted (ps : list param) (kw : gmap string pyval) name d :
  kw !! name = None → default_of ps name = Some d → bind_arg ps kw name = Ok d.
Proof. intros E D. unfold bind_arg. by rewrite E, D. Qed.

Lemma accepts_inv (ps : list param) (kw : gmap string pyval) :
  accepts ps kw = true →
  check_keywords ps kw = Ok tt ∧ supplies_required ps kw = true.
Proof.
  unfold accepts, check_keywords. intros [H1 H2]%andb_prop.
  by rewrite H1.
Qed.

(** One step of a call: the next parameter is bound, to a value named
    afresh. *)
Ltac bind_next Hreq :=
  lazymatch goal with
  | |- context [bind_arg ?ps ?kw ?name] =>
      let v := fresh "v" in
      let E := fresh "E" in
      destruct (bind_arg_accepted ps kw name Hreq) as [v E];
      [ compute_done | rewrite E; clear E; simpl ]
  end.

(** The step for a parameter the call leaves out. *)
Ltac bind_omitted Hnone :=
  lazymatch type of Hnone with
  | ?kw !! ?name = None =>
      lazymatch goal with
      | |- context [bind_arg ?ps kw name] =>
          rewrite (bind_arg_omitted ps kw name _ Hnone eq_refl)
      end
  end.

Ltac enter_call Hacc :=
  let Hkw := fresh "Hkw" in
  let Hreq := fresh "Hreq" in
  apply accepts_inv in Hacc as [Hkw Hreq];
  cbv [ccall query_job explain_forecast_model export_model wait_gcp
       call_bigquery_query_job call_bigquery_explain_forecast_model_job
       call_bigquery_export_model_job call_wait_gcp_resources];
  simpl in Hkw, Hreq; rewrite Hkw; simpl.

Lemma default_of_declared (ps : list param) (name : string) (d : pyval) :
  default_of ps name = Some d → name ∈ names ps.
Proof.
  unfold default_of. destruct (List.find _ ps) as [p|] eqn:F; [|discriminate].
  intros _. apply List.find_some in F as [Hp Heq].
  apply String.eqb_eq in Heq. subst name.
  apply list_elem_of_fmap_2. by apply list_elem_of_In.
Qed.

Lemma check_keywords_insert (ps : list param) (kw : gmap string pyval) k v :
  k ∈ names ps → check_keywords ps (<[k:=v]> kw) = check_keywords ps kw.
Proof.
  intros Hk. unfold check_keywords, only_declared.
  rewrite (bool_decide_ext (dom (<[k:=v]> kw) ⊆ list_to_set (names ps))
             (dom kw ⊆ list_to_set (names ps))); [done|].
  rewrite dom_insert_L. split; intros H x Hx.
  - apply H, elem_of_union. by right.
  - apply elem_of_union in Hx as [Hx|Hx]; [|by apply H].
    apply elem_of_singleton in Hx. subst x. by apply elem_of_list_to_set.
Qed.

Lemma check_keywords_replace (ps : list param) (kw : gmap string pyval) k v1 v2 :
  check_keywords ps (<[k:=v1]> kw) = check_keywords ps (<[k:=v2]> kw).
Proof. unfold check_keywords, only_declared. by rewrite !dom_insert_L. Qed.

Lemma bind_arg_insert_eq (ps : list param) (kw : gmap string pyval) k v :
  bind_arg ps (<[k:=v]> kw) k = Ok v.
Proof. unfold bind_arg. by rewrite lookup_insert_eq. Qed.

Lemma bind_arg_insert_ne (ps : list param) (kw : gmap string pyval) k v name :
  k ≠ name → bind_arg ps (<[k:=v]> kw) name = bind_arg ps kw name.
Proof. intros Hne. unfold bind_arg. by rewrite lookup_insert_ne. Qed.

Lemma bind_arg_insert_default (ps : list param) (kw : gmap string pyval)
    name d n :
  default_of ps name = Some d → kw !! name = None →
  bind_arg ps (<[name:=d]> kw) n = bind_arg ps kw n.
Proof.
  intros Hd Hnone. destruct (decide (name = n)) as [<-|Hne].
  - by rewrite bind_arg_insert_eq, (bind_arg_omitted ps kw name d).
  - by apply bind_arg_insert_ne.
Qed.

Lemma append_assoc (s1 s2 s3 : string) :
  (s1 +:+ s2) +:+ s3 = s1 +:+ (s2 +:+ s3).
Proof.
  induction s1 as [|c s1 IH]; [reflexivity|].
  change (String c ((s1 +:+ s2) +:+ s3) = String c (s1 +:+ (s2 +:+ s3))).
  by rewrite IH.
Qed.

Lemma length_append (s1 s2 : string) :
  String.length (s1 +:+ s2) = String.length s1 + String.length s2.
Proof.
  induction s1 as [|c s1 IH]; [reflexivity|].
  change (S (String.length (s1 +:+ s2)) = S (String.length s1 + String.length s2)).
  by rewrite IH.
Qed.

Ltac case_component Hc :=
  unfold components, bigquery_components in Hc; simpl in Hc;
  rewrite !elem_of_cons, elem_of_nil in Hc;
  repeat (destruct Hc as [->|Hc]); [..|destruct Hc].

Ltac unfold_call :=
  cbv [ccall cparams query_job explain_forecast_model export_model wait_gcp
       call_bigquery_query_job call_bigquery_explain_forecast_model_job
       call_bigquery_export_model_job call_wait_gcp_resources].

Ltac case_entry H :=
  unfold passed_unchanged in H;
  rewrite !elem_of_cons, elem_of_nil in H;
  repeat (destruct H as [H|H]); [..|destruct H];
  injection H as -> -> ->.

Ltac bind_supplied Hsome :=
  lazymatch type of Hsome with
  | ?kw !! ?name = Some ?v =>
      lazymatch goal with
      | |- context [bind_arg ?ps kw name] =>
          rewrite (bind_arg_supplied ps kw name v Hsome)
      end
  end.

(** ** The emitted container specification *)

Lemma common_flags_everywhere :
  Forall (fun flags => common_flags ⊆ flags)
    [ bigquery_query_job_flags; bigquery_explain_forecast_model_job_flags;
      bigquery_export_model_job_flags; wait_gcp_resources_flags ].
Proof.
  repeat (apply List.Forall_cons; [compute_done|]). apply List.Forall_nil.
Qed.

Section ArgumentVector.

Variables project model destination_table gcp_resources location : pyval.
Variables query_parameters job_configuration labels kms_key : pyval.
Variables horizon confidence_level : pyval.
Variables model_destination_path exported_model_path : pyval.
Variable input_gcp_resources : pyval.

(** The four specifications at arbitrary argument values. *)
Let query_spec (query : pyval) : ContainerSpec :=
  bigquery_query_job project destination_table gcp_resources query location
    query_parameters job_configuration labels kms_key.

Let explain_spec : ContainerSpec :=
  bigquery_explain_forecast_model_job project model destination_table
    gcp_resources location horizon confidence_level query_parameters
    job_configuration labels kms_key.

Let export_spec : ContainerSpec :=
  bigquery_export_model_job project model model_destination_path
    exported_model_path gcp_resources location job_configuration labels.

Let wait_spec : ContainerSpec :=
  wait_gcp_resources input_gcp_resources gcp_resources.

(** C1.  Whatever the inputs, the argument vector of each of the four
    components alternates flag names with values: the flag positions hold a
    list of literals that is the same for all inputs, each flag has a value
    after it, and the flags [--type], [--project], [--location],
    [--payload] and [--gcp_resources] are among those of every component. *)
Theorem args_alternate_flags_and_values (query : pyval) :
  alternates bigquery_query_job_flags (args (query_spec query))
  ∧ alternates bigquery_explain_forecast_model_job_flags (args explain_spec)
  ∧ alternates bigquery_export_model_job_flags (args export_spec)
  ∧ alternates wait_gcp_resources_flags (args wait_spec)
  ∧ Forall (fun flags => common_flags ⊆ flags)
      [ bigquery_query_job_flags; bigquery_explain_forecast_model_job_flags;
        bigquery_export_model_job_flags; wait_gcp_resources_flags ].
Proof.
  repeat split. apply common_flags_everywhere.
Qed.

(** C2.  Whatever the inputs, each of the four components emits the image
    [gcr.io/ml-pipeline/google-cloud-pipeline-components:latest] and the
    command [python3 -u -m <launcher module of the component>]. *)
Theorem image_and_command_fixed (query : pyval) :
  let gcpc := "gcr.io/ml-pipeline/google-cloud-pipeline-components:latest" in
  let launch (module : string) : list pyval :=
    [ PStr "python3"; PStr "-u"; PStr "-m"; PStr module ] in
  (image (query_spec query) = gcpc
   ∧ command (query_spec query) =
       launch "google_cloud_pipeline_components.container.v1.bigquery.query_job.launcher")
  ∧ (image explain_spec = gcpc
     ∧ command explain_spec =
         launch "google_cloud_pipeline_components.container.v1.bigquery.explain_forecast_model.launcher")
  ∧ (image export_spec = gcpc
     ∧ command export_spec =
         launch "google_cloud_pipeline_components.container.v1.bigquery.export_model.launcher")
  ∧ (image wait_spec = gcpc
     ∧ command wait_spec =
         launch "google_cloud_pipeline_components.container.v1.wait_gcp_resources.launcher").
Proof. repeat split. Qed.

(** C3.  Whatever the inputs, in each of the three BigQuery components the
    argument after [--payload] is the concatenation of the literals and the
    two parameters in the order the specification lists them; whatever the
    serialisation of values, it spells the template
    [{"configuration": {"query": <config>, "labels": <labels>}}]. *)
Theorem payload_is_claimed_template (query : pyval) (serialize : pyval -> string) :
  let payload := claimed_payload job_configuration labels in
  arg_after "--payload" (args (query_spec query)) = Some payload
  ∧ arg_after "--payload" (args explain_spec) = Some payload
  ∧ arg_after "--payload" (args export_spec) = Some payload
  ∧ resolve serialize payload =
      claimed_payload_template (resolve serialize job_configuration)
        (resolve serialize labels).
Proof. repeat split. Qed.

(** C4.  Whatever the inputs, in [bigquery_explain_forecast_model_job] and
    [bigquery_export_model_job] the argument after [--model_name] is the
    concatenation of the [projectId] placeholder of the model artifact, a
    dot, its [datasetId] placeholder, a dot and its [modelId] placeholder. *)
Theorem model_name_is_dotted_path (serialize : pyval -> string) :
  arg_after "--model_name" (args explain_spec) = Some claimed_model_name
  ∧ arg_after "--model_name" (args export_spec) = Some claimed_model_name
  ∧ resolve serialize claimed_model_name =
      "{{$.inputs.artifacts['model'].metadata['projectId']}}" +:+ "." +:+
      "{{$.inputs.artifacts['model'].metadata['datasetId']}}" +:+ "." +:+
      "{{$.inputs.artifacts['model'].metadata['modelId']}}".
Proof. repeat split. Qed.

(** C8.  For every query string [q], the value [bigquery_query_job] emits
    after [--job_configuration_query_override] is a concatenation in which
    [q] itself, unchanged, is the item between the literal ending in
    ["query": "] and the literal ["]; it spells
    [override_prefix ++ q ++ override_suffix ..], where the prefix is a
    constant and the suffix, which begins with a double quote, is built
    from literals and the other two parameters of the override and so is
    the same for every [q]. *)
Theorem query_embedded_verbatim (q : string) (serialize : pyval -> string) :
  let value :=
    ConcatPlaceholder
      (override_before ++ PStr q :: override_after query_parameters kms_key) in
  arg_after "--job_configuration_query_override" (args (query_spec (PStr q)))
    = Some value
  ∧ resolve serialize value =
      override_prefix +:+ q +:+
      override_suffix (resolve serialize query_parameters)
        (resolve serialize kms_key).
Proof. repeat split. Qed.

(** The query text reaches the launcher character for character, quotes
    and backslash included. *)
Example quoting_query_not_escaped :
  option_map (resolve (fun _ => "[]"))
    (arg_after "--job_configuration_query_override"
       (args (query_spec (PStr quoting_query))))
  = Some ("{" +:+ quoted "query" +:+ ": " +:+ dquote
            +:+ "SELECT " +:+ dquote +:+ "a\b" +:+ dquote +:+ " FROM t WHERE c = 'x'"
            +:+ dquote +:+ ", " +:+ quoted "query_parameters" +:+ ": "
            +:+ resolve (fun _ => "[]") query_parameters
            +:+ ", " +:+ quoted "destination_encryption_configuration" +:+ ": {"
            +:+ quoted "kmsKeyName" +:+ ": " +:+ dquote
            +:+ resolve (fun _ => "[]") kms_key +:+ dquote +:+ "}}").
Proof. reflexivity. Qed.

(** A value that spells a flag name is not taken for the flag. *)
Example payload_read_at_its_flag :
  arg_after "--payload"
    (args (bigquery_query_job (PStr "--payload") destination_table
             gcp_resources (PStr "--payload") (PStr "--payload")
             query_parameters job_configuration labels kms_key))
  = Some (claimed_payload job_configuration labels).
Proof. reflexivity. Qed.

(** C10.  Whatever the inputs, [wait_gcp_resources] emits [--project] and
    [--location] each followed by the empty string, [--type] followed by
    [Wait], and has no [--executor_input] among its flags, while the
    argument vector of each BigQuery component ends with
    [--executor_input] followed by [{{$}}]. *)
Theorem wait_has_no_executor_input (query : pyval) :
  (arg_after "--project" (args wait_spec) = Some (PStr EmptyString)
   ∧ arg_after "--location" (args wait_spec) = Some (PStr EmptyString)
   ∧ arg_after "--type" (args wait_spec) = Some (PStr "Wait")
   ∧ (PStr "--executor_input" ∉ flags_of (args wait_spec))
   ∧ arg_after "--executor_input" (args wait_spec) = None)
  ∧ ends_with_pair "--executor_input" "{{$}}" (args (query_spec query))
  ∧ ends_with_pair "--executor_input" "{{$}}" (args explain_spec)
  ∧ ends_with_pair "--executor_input" "{{$}}" (args export_spec).
Proof.
  repeat split.
  - simpl. rewrite !not_elem_of_cons.
    repeat split; try discriminate. apply not_elem_of_nil.
  - by eexists (take 12 (args (query_spec query))).
  - by eexists (take 18 (args explain_spec)).
  - by eexists (take 16 (args export_spec)).
Qed.

End ArgumentVector.

(** ** Calls *)

(** C5.  A call of any of the four components that binds, that is, one
    that supplies every parameter without a default and no keyword besides
    the declared ones, returns a [ContainerSpec]: no value of any
    parameter, of the annotated type or not, empty or not, is rejected. *)
Theorem components_always_return (c : component) (kw : gmap string pyval) :
  c ∈ components → accepts (cparams c) kw = true →
  ∃ spec, ccall c kw = Ok spec.
Proof.
  intros Hc Hacc. unfold components, bigquery_components in Hc. simpl in Hc.
  rewrite !elem_of_cons, elem_of_nil in Hc.
  destruct Hc as [->|[->|[->|[->|[]]]]];
    enter_call Hacc; repeat bind_next Hreq; eauto.
Qed.

Lemma components_always_return_witness :
  query_job ∈ components
  ∧ accepts (cparams query_job) empty_inputs = true
  ∧ ∃ spec, ccall query_job empty_inputs = Ok spec.
Proof.
  assert (Hc : query_job ∈ components) by apply list_elem_of_here.
  assert (Hacc : accepts (cparams query_job) empty_inputs = true)
    by (vm_compute; reflexivity).
  exact (conj Hc (conj Hacc
           (components_always_return query_job empty_inputs Hc Hacc))).
Defined.

(** X5.  Conversely a call that returns was bound: the [TypeError] of
    binding is the only way a call fails. *)
Lemma components_return_only_if_bound (c : component)
    (kw : gmap string pyval) (spec : ContainerSpec) :
  c ∈ components → ccall c kw = Ok spec → accepts (cparams c) kw = true.
Proof.
  intros Hc. unfold components, bigquery_components in Hc. simpl in Hc.
  rewrite !elem_of_cons, elem_of_nil in Hc.
  destruct Hc as [->|[->|[->|[->|[]]]]];
    cbv [ccall cparams query_job explain_forecast_model export_model wait_gcp
         call_bigquery_query_job call_bigquery_explain_forecast_model_job
         call_bigquery_export_model_job call_wait_gcp_resources];
    unfold accepts, check_keywords;
    (destruct (only_declared _ kw); [|discriminate]);
    simpl; unfold bind_arg;
    repeat
      (match goal with
       | |- context [bool_decide (is_Some (kw !! ?n))] =>
           destruct (kw !! n) eqn:?; simpl; [|discriminate]
       end);
    reflexivity.
Qed.

Example missing_project_is_a_type_error :
  ccall query_job (delete "project" empty_inputs)
  = TypeError "missing required argument: project".
Proof. reflexivity. Qed.

Example undeclared_keyword_is_a_type_error :
  ccall wait_gcp (<["project" := PStr "my-project"]> wait_inputs)
  = TypeError "got an unexpected keyword argument".
Proof. reflexivity. Qed.

Example ill_typed_value_is_not_rejected :
  ∃ spec, ccall wait_gcp (<["input_gcp_resources" := PInt 7]> wait_inputs)
          = Ok spec
          ∧ arg_after "--payload" (args spec) = Some (PInt 7).
Proof. eexists. split; reflexivity. Qed.

Example wait_gcp_resources_snapshot :
  ccall wait_gcp wait_inputs
  = Ok {| image := "gcr.io/ml-pipeline/google-cloud-pipeline-components:latest";
          command :=
            [ PStr "python3"; PStr "-u"; PStr "-m";
              PStr "google_cloud_pipeline_components.container.v1.wait_gcp_resources.launcher" ];
          args :=
            [ PStr "--type"; PStr "Wait"; PStr "--project"; PStr EmptyString;
              PStr "--location"; PStr EmptyString; PStr "--payload"; PStr "{}";
              PStr "--gcp_resources"; PStr "/gcs/out/gcp_resources" ] |}.
Proof. reflexivity. Qed.

(** C7 as stated fails: [wait_gcp_resources] declares no default. *)
Lemma not_every_component_declares_default :
  ¬ Forall (fun c => declares_default c = true) components.
Proof.
  intros H. rewrite List.Forall_forall in H.
  specialize (H wait_gcp). simpl in H.
  assert (false = true) by (apply H; tauto). discriminate.
Qed.

(** C7, amended.  Each of the three BigQuery components declares at least
    one parameter carrying a default value; [wait_gcp_resources] declares
    two parameters, none of which carries a default. *)
Theorem bigquery_components_declare_defaults :
  Forall (fun c => declares_default c = true) bigquery_components
  ∧ length (cparams wait_gcp) = 2
  ∧ Forall (fun p => pdefault p = None) (cparams wait_gcp).
Proof.
  split; [|split]; [repeat constructor | reflexivity | repeat constructor].
Qed.

(** C9.  When a call of one of the three BigQuery components binds and
    supplies no [location], the value after [--location] is
    [us-central1], whatever the other arguments are. *)
Theorem location_defaults_to_us_central1 (c : component)
    (kw : gmap string pyval) :
  c ∈ bigquery_components → accepts (cparams c) kw = true →
  kw !! "location" = None →
  ∃ spec, ccall c kw = Ok spec
          ∧ arg_after "--location" (args spec) = Some (PStr "us-central1").
Proof.
  intros Hc Hacc Hloc. unfold bigquery_components in Hc.
  rewrite !elem_of_cons, elem_of_nil in Hc.
  destruct Hc as [->|[->|[->|[]]]]; enter_call Hacc;
    bind_omitted Hloc; repeat bind_next Hreq;
    (eexists; split; reflexivity).
Qed.

Lemma location_defaults_to_us_central1_witness :
  export_model ∈ bigquery_components
  ∧ accepts (cparams export_model) required_only = true
  ∧ required_only !! "location" = None
  ∧ ∃ spec, ccall export_model required_only = Ok spec
            ∧ arg_after "--location" (args spec) = Some (PStr "us-central1").
Proof.
  assert (Hc : export_model ∈ bigquery_components)
    by (do 2 apply list_elem_of_further; apply list_elem_of_here).
  assert (Hacc : accepts (cparams export_model) required_only = true)
    by (vm_compute; reflexivity).
  assert (Hloc : required_only !! "location" = None) by reflexivity.
  exact (conj Hc (conj Hacc (conj Hloc
           (location_defaults_to_us_central1 export_model required_only
              Hc Hacc Hloc)))).
Defined.

(** ** Further properties of the calls *)

(** X1.  A supplied value of a parameter that has a flag of its own is
    emitted after that flag unchanged. *)
Theorem supplied_value_reaches_its_flag (c : component) (flag name : string)
    (kw : gmap string pyval) (v : pyval) :
  (c, flag, name) ∈ passed_unchanged → accepts (cparams c) kw = true →
  kw !! name = Some v →
  ∃ spec, ccall c kw = Ok spec ∧ arg_after flag (args spec) = Some v.
Proof.
  intros Hentry Hacc Hsome. case_entry Hentry; enter_call Hacc;
    bind_supplied Hsome; repeat bind_next Hreq;
    (eexists; split; reflexivity).
Qed.

Lemma supplied_value_reaches_its_flag_witness :
  (export_model, "--model_destination_path", "model_destination_path")
    ∈ passed_unchanged
  ∧ accepts (cparams export_model) required_only = true
  ∧ required_only !! "model_destination_path" = Some (PStr "gs://bucket/model")
  ∧ ∃ spec, ccall export_model required_only = Ok spec
            ∧ arg_after "--model_destination_path" (args spec)
              = Some (PStr "gs://bucket/model").
Proof.
  assert (He : (export_model, "--model_destination_path", "model_destination_path")
                 ∈ passed_unchanged)
    by (do 10 apply list_elem_of_further; apply list_elem_of_here).
  assert (Hacc : accepts (cparams export_model) required_only = true)
    by (vm_compute; reflexivity).
  assert (Hs : required_only !! "model_destination_path"
               = Some (PStr "gs://bucket/model")) by reflexivity.
  exact (conj He (conj Hacc (conj Hs
           (supplied_value_reaches_its_flag export_model _ _ required_only _
              He Hacc Hs)))).
Defined.

(** X2.  An omitted parameter that has a flag of its own and declares a
    default has that default emitted after the flag. *)
Theorem omitted_value_is_its_default (c : component) (flag name : string)
    (kw : gmap string pyval) (d : pyval) :
  (c, flag, name) ∈ passed_unchanged → accepts (cparams c) kw = true →
  kw !! name = None → default_of (cparams c) name = Some d →
  ∃ spec, ccall c kw = Ok spec ∧ arg_after flag (args spec) = Some d.
Proof.
  intros Hentry Hacc Hnone Hd. case_entry Hentry;
    try discriminate Hd; injection Hd as <-; enter_call Hacc;
    bind_omitted Hnone; repeat bind_next Hreq;
    (eexists; split; reflexivity).
Qed.

Lemma omitted_value_is_its_default_witness :
  (explain_forecast_model, "--confidence_level", "confidence_level")
    ∈ passed_unchanged
  ∧ accepts (cparams explain_forecast_model) sample_explain_inputs = true
  ∧ sample_explain_inputs !! "confidence_level" = None
  ∧ default_of (cparams explain_forecast_model) "confidence_level"
    = Some (PFloat 0.95)
  ∧ ∃ spec, ccall explain_forecast_model sample_explain_inputs = Ok spec
            ∧ arg_after "--confidence_level" (args spec) = Some (PFloat 0.95).
Proof.
  assert (He : (explain_forecast_model, "--confidence_level", "confidence_level")
                 ∈ passed_unchanged)
    by (do 6 apply list_elem_of_further; apply list_elem_of_here).
  assert (Hacc : accepts (cparams explain_forecast_model) sample_explain_inputs
                 = true) by (vm_compute; reflexivity).
  assert (Hn : sample_explain_inputs !! "confidence_level" = None)
    by reflexivity.
  assert (Hd : default_of (cparams explain_forecast_model) "confidence_level"
               = Some (PFloat 0.95)) by reflexivity.
  exact (conj He (conj Hacc (conj Hn (conj Hd
           (omitted_value_is_its_default explain_forecast_model _ _
              sample_explain_inputs _ He Hacc Hn Hd))))).
Defined.

(** X3.  Writing out the declared default of a parameter is the same as
    leaving the parameter out. *)
Theorem explicit_default_same_as_omitted (c : component)
    (kw : gmap string pyval) (name : string) (d : pyval) :
  c ∈ components → default_of (cparams c) name = Some d →
  kw !! name = None →
  ccall c (<[name := d]> kw) = ccall c kw.
Proof.
  intros Hc Hd Hnone.
  pose proof (default_of_declared _ _ _ Hd) as Hin.
  case_component Hc; unfold_call; cbv [cparams] in Hd, Hin;
    rewrite (check_keywords_insert _ kw name d Hin);
    rewrite !(bind_arg_insert_default _ kw name d _ Hd Hnone);
    reflexivity.
Qed.

Lemma explicit_default_same_as_omitted_witness :
  explain_forecast_model ∈ components
  ∧ default_of (cparams explain_forecast_model) "horizon" = Some (PInt 3)
  ∧ sample_explain_inputs !! "horizon" = None
  ∧ ccall explain_forecast_model (<["horizon" := PInt 3]> sample_explain_inputs)
    = ccall explain_forecast_model sample_explain_inputs.
Proof.
  assert (Hc : explain_forecast_model ∈ components)
    by (apply list_elem_of_further; apply list_elem_of_here).
  assert (Hd : default_of (cparams explain_forecast_model) "horizon"
               = Some (PInt 3)) by reflexivity.
  assert (Hn : sample_explain_inputs !! "horizon" = None) by reflexivity.
  exact (conj Hc (conj Hd (conj Hn
           (explicit_default_same_as_omitted explain_forecast_model
              sample_explain_inputs _ _ Hc Hd Hn)))).
Defined.

(** X4.  The value given for an artifact parameter has no effect on the
    result of the call. *)
Theorem artifact_argument_is_ignored (c : component) (name : string)
    (kw : gmap string pyval) (v1 v2 : pyval) :
  (c, name) ∈ artifact_parameters →
  ccall c (<[name := v1]> kw) = ccall c (<[name := v2]> kw).
Proof.
  intros Hentry. unfold artifact_parameters in Hentry.
  rewrite !elem_of_cons, elem_of_nil in Hentry.
  repeat (destruct Hentry as [Hentry|Hentry]); [..|destruct Hentry];
    injection Hentry as -> ->; unfold_call;
    rewrite (check_keywords_replace _ kw _ v1 v2);
    rewrite !bind_arg_insert_eq;
    rewrite !(bind_arg_insert_ne _ kw _ v1) by discriminate;
    rewrite !(bind_arg_insert_ne _ kw _ v2) by discriminate;
    reflexivity.
Qed.

Lemma artifact_argument_is_ignored_witness :
  (export_model, "model") ∈ artifact_parameters
  ∧ ccall export_model
      (<["model" := PArtifact "BQMLModel" "bq://other.ds.m" []]> required_only)
    = ccall export_model (<["model" := PInt 0]> required_only).
Proof.
  assert (He : (export_model, "model") ∈ artifact_parameters)
    by (do 3 apply list_elem_of_further; apply list_elem_of_here).
  exact (conj He (artifact_argument_is_ignored export_model _ required_only
                    _ _ He)).
Defined.

Lemma components_return_only_if_bound_witness :
  wait_gcp ∈ components
  ∧ ccall wait_gcp wait_inputs
    = Ok (wait_gcp_resources (PStr "{}") (PStr "/gcs/out/gcp_resources"))
  ∧ accepts (cparams wait_gcp) wait_inputs = true.
Proof.
  assert (Hc : wait_gcp ∈ components)
    by (do 3 apply list_elem_of_further; apply list_elem_of_here).
  assert (Hr : ccall wait_gcp wait_inputs
               = Ok (wait_gcp_resources (PStr "{}")
                       (PStr "/gcs/out/gcp_resources"))) by reflexivity.
  exact (conj Hc (conj Hr
           (components_return_only_if_bound wait_gcp wait_inputs _ Hc Hr))).
Defined.

(** X7.  A call of a BigQuery component with its required parameters
    alone returns the specification built from these values and the
    declared default of every other parameter. *)
Theorem required_arguments_alone
    (project model destination_table gcp_resources : pyval)
    (model_destination_path exported_model_path : pyval) :
  ccall query_job (query_required project destination_table gcp_resources)
  = Ok (bigquery_query_job project destination_table gcp_resources
          (PStr EmptyString) (PStr "us-central1") (PList []) (PDict [])
          (PDict []) (PStr EmptyString))
  ∧ ccall explain_forecast_model
      (explain_required project model destination_table gcp_resources)
    = Ok (bigquery_explain_forecast_model_job project model destination_table
            gcp_resources (PStr "us-central1") (PInt 3) (PFloat 0.95)
            (PList []) (PDict []) (PDict []) (PStr EmptyString))
  ∧ ccall export_model
      (export_required project model model_destination_path
         exported_model_path gcp_resources)
    = Ok (bigquery_export_model_job project model model_destination_path
            exported_model_path gcp_resources (PStr "us-central1") (PDict [])
            (PDict [])).
Proof. repeat split. Qed.

Section Overrides.

Variables project model destination_table gcp_resources location : pyval.
Variables query_parameters job_configuration labels : pyval.
Variables horizon confidence_level : pyval.
Variable serialize : pyval -> string.

Let query_override (query kms_key : pyval) : option string :=
  option_map (resolve serialize)
    (arg_after "--job_configuration_query_override"
       (args (bigquery_query_job project destination_table gcp_resources query
                location query_parameters job_configuration labels kms_key))).

Let explain_override (kms_key : pyval) : option string :=
  option_map (resolve serialize)
    (arg_after "--job_configuration_query_override"
       (args (bigquery_explain_forecast_model_job project model
                destination_table gcp_resources location horizon
                confidence_level query_parameters job_configuration labels
                kms_key))).

(** X8.  The override of [bigquery_explain_forecast_model_job] carries the
    query parameters and the key name and no query; the override of
    [bigquery_query_job] is the same text with the query field put
    first. *)
Theorem query_override_extends_explain_override (query kms_key : pyval) :
  let rest :=
    override_rest (resolve serialize query_parameters)
      (resolve serialize kms_key) in
  explain_override kms_key = Some ("{" +:+ rest)
  ∧ query_override query kms_key =
      Some ("{" +:+ quoted "query" +:+ ": " +:+ dquote
              +:+ resolve serialize query +:+ dquote +:+ ", " +:+ rest).
Proof. split; reflexivity. Qed.

(** X9.  The override text does not determine the query: moving what
    follows a query, up to the key name, from the query into the key name
    leaves the text the same. *)
Theorem query_override_is_ambiguous (u w kms_key : string) :
  let middle := after_query +:+ resolve serialize query_parameters +:+ before_key in
  query_override (PStr (u +:+ middle +:+ w)) (PStr kms_key)
  = query_override (PStr u) (PStr (w +:+ middle +:+ kms_key))
  ∧ u +:+ middle +:+ w ≠ u.
Proof.
  intros middle. split.
  - unfold query_override. simpl. f_equal.
    change (override_prefix +:+ (u +:+ middle +:+ w) +:+ after_query
              +:+ resolve serialize query_parameters +:+ before_key
              +:+ kms_key +:+ dquote +:+ "}}"
            = override_prefix +:+ u +:+ after_query
              +:+ resolve serialize query_parameters +:+ before_key
              +:+ (w +:+ middle +:+ kms_key) +:+ dquote +:+ "}}").
    unfold middle. by rewrite !append_assoc.
  - intros Heq. apply (f_equal String.length) in Heq.
    unfold middle, after_query in Heq.
    rewrite !length_append in Heq. simpl in Heq. lia.
Qed.

End Overrides.

Section Flags.

Variables project model destination_table gcp_resources location query : pyval.
Variables query_parameters job_configuration labels kms_key : pyval.
Variables horizon confidence_level : pyval.
Variables model_destination_path exported_model_path : pyval.
Variable input_gcp_resources : pyval.

(** X10.  Whatever the inputs, no argument vector names a flag twice. *)
Theorem no_flag_twice :
  NoDup (flags_of (args (bigquery_query_job project destination_table
                           gcp_resources query location query_parameters
                           job_configuration labels kms_key)))
  ∧ NoDup (flags_of (args (bigquery_explain_forecast_model_job project model
                             destination_table gcp_resources location horizon
                             confidence_level query_parameters
                             job_configuration labels kms_key)))
  ∧ NoDup (flags_of (args (bigquery_export_model_job project model
                             model_destination_path exported_model_path
                             gcp_resources location job_configuration labels)))
  ∧ NoDup (flags_of (args (wait_gcp_resources input_gcp_resources
                             gcp_resources))).
Proof.
  assert (Hinj : Inj (=) (=) PStr) by (intros s1 s2 [= ->]; reflexivity).
  repeat split.
  - apply (NoDup_fmap_2 PStr bigquery_query_job_flags). compute_done.
  - apply (NoDup_fmap_2 PStr bigquery_explain_forecast_model_job_flags).
    compute_done.
  - apply (NoDup_fmap_2 PStr bigquery_export_model_job_flags). compute_done.
  - apply (NoDup_fmap_2 PStr wait_gcp_resources_flags). compute_done.
Qed.

End Flags.

(** ** Invocations and default objects *)

Lemma lookup_with_defaults (f : funobj) (σ : gmap positive pyval)
    (kw : gmap string pyval) (name : string) :
  (kw ∪ defaults_now f σ) !! name =
  match kw !! name with
  | Some v => Some v
  | None => fdefaults f !! name ≫= (fun l => σ !! l)
  end.
Proof.
  unfold defaults_now. rewrite lookup_union, lookup_omap.
  destruct (kw !! name) as [v|]; simpl; [|by rewrite (left_id None _)].
  by destruct (fdefaults f !! name ≫= _).
Qed.

Lemma bindings_agree (f : funobj) (kw : gmap string pyval)
    (σ1 σ2 : gmap positive pyval) :
  agree_on_omitted f kw σ1 σ2 →
  kw ∪ defaults_now f σ1 = kw ∪ defaults_now f σ2.
Proof.
  intros Hagree. apply map_eq. intros name.
  rewrite !lookup_with_defaults.
  destruct (kw !! name) as [v|] eqn:E; [reflexivity|].
  destruct (fdefaults f !! name) as [l|] eqn:El; [|reflexivity].
  simpl. by apply (Hagree name l).
Qed.

Lemma carried_value (c : component) (name flag : string) (i : nat)
    (kw : gmap string pyval) (v : pyval) :
  (c, name, (flag, i)) ∈ carried_at → accepts (cparams c) kw = true →
  kw !! name = Some v →
  ∃ spec, ccall c kw = Ok spec ∧ concat_item flag i spec = Some v.
Proof.
  intros Hentry Hacc Hsome. unfold carried_at in Hentry.
  rewrite !elem_of_cons, elem_of_nil in Hentry.
  repeat (destruct Hentry as [Hentry|Hentry]); [..|destruct Hentry];
    injection Hentry as -> -> -> ->; enter_call Hacc;
    bind_supplied Hsome; repeat bind_next Hreq;
    (eexists; split; reflexivity).
Qed.

(** The parameters whose default is an object are declared, with the
    contents the object has at first. *)
Lemma default_objects_declared (f : funobj) (name : string) (l : positive) :
  f ∈ function_objects → fdefaults f !! name = Some l →
  default_of (cparams (fcomp f)) name = initial_store !! l
  ∧ is_Some (initial_store !! l)
  ∧ ∃ pos, (fcomp f, name, pos) ∈ carried_at.
Proof.
  intros Hf Hl. unfold function_objects in Hf.
  rewrite !elem_of_cons, elem_of_nil in Hf.
  repeat (destruct Hf as [->|Hf]); [..|destruct Hf];
    cbv [fdefaults fcomp bigquery_query_job_def
         bigquery_explain_forecast_model_job_def
         bigquery_export_model_job_def wait_gcp_resources_def] in Hl |- *;
    repeat (rewrite lookup_insert in Hl; case_decide;
            [injection Hl as <-; subst name|]);
    try (by rewrite lookup_empty in Hl);
    (split; [reflexivity|]; split; [by eexists|]);
    eexists; unfold carried_at; rewrite !elem_of_cons; eauto 20.
Qed.

Lemma accepts_union (ps : list param) (kw extra : gmap string pyval) :
  accepts ps kw = true → (∀ name, is_Some (extra !! name) → name ∈ names ps) →
  accepts ps (kw ∪ extra) = true.
Proof.
  unfold accepts, only_declared, supplies_required.
  intros [Hdecl Hreq]%andb_prop Hextra. apply andb_true_intro. split.
  - apply bool_decide_eq_true in Hdecl. apply bool_decide_eq_true.
    rewrite dom_union_L. intros name [Hin|Hin]%elem_of_union.
    + by apply Hdecl.
    + apply elem_of_list_to_set, Hextra. by apply elem_of_dom.
  - rewrite forallb_forall in Hreq |- *. intros p Hp.
    specialize (Hreq p Hp). apply orb_prop in Hreq as [Hd|Hs].
    + by rewrite Hd.
    + apply bool_decide_eq_true in Hs as [v Hv].
      rewrite (lookup_union_Some_l kw extra _ v Hv).
      rewrite (bool_decide_eq_true_2 _ (mk_is_Some _ _ eq_refl)).
      apply orb_true_r.
Qed.

Lemma accepts_with_defaults (f : funobj) (σ : gmap positive pyval)
    (kw : gmap string pyval) :
  f ∈ function_objects → accepts (cparams (fcomp f)) kw = true →
  accepts (cparams (fcomp f)) (kw ∪ defaults_now f σ) = true.
Proof.
  intros Hf Hacc. apply accepts_union; [done|].
  intros name [v Hv]. unfold defaults_now in Hv. rewrite lookup_omap in Hv.
  destruct (fdefaults f !! name) as [l|] eqn:El; [|discriminate].
  destruct (default_objects_declared f name l Hf El) as (Hd & [d Hd'] & _).
  rewrite Hd' in Hd. by apply (default_of_declared _ _ d).
Qed.

(** In the store the modules are loaded into, an invocation is the call
    with the declared defaults. *)
Lemma bind_arg_union_declared (ps : list param) (kw extra : gmap string pyval)
    (n : string) :
  (∀ k v, extra !! k = Some v → default_of ps k = Some v) →
  bind_arg ps (kw ∪ extra) n = bind_arg ps kw n.
Proof.
  intros Hextra. unfold bind_arg. rewrite lookup_union.
  destruct (kw !! n) as [v|]; destruct (extra !! n) as [d|] eqn:E; simpl;
    try reflexivity.
  by rewrite (Hextra n d E).
Qed.

Lemma check_keywords_union (ps : list param) (kw extra : gmap string pyval) :
  (∀ k v, extra !! k = Some v → default_of ps k = Some v) →
  check_keywords ps (kw ∪ extra) = check_keywords ps kw.
Proof.
  intros Hextra. unfold check_keywords, only_declared.
  rewrite (bool_decide_ext (dom (kw ∪ extra) ⊆ list_to_set (names ps))
             (dom kw ⊆ list_to_set (names ps))); [done|].
  rewrite dom_union_L. split; intros H x Hx.
  - apply H, elem_of_union. by left.
  - apply elem_of_union in Hx as [Hx|Hx]; [by apply H|].
    apply elem_of_dom in Hx as [v Hv]. apply elem_of_list_to_set.
    by apply (default_of_declared _ _ v), Hextra.
Qed.

Lemma invoke_in_initial_store (f : funobj) (kw : gmap string pyval) :
  f ∈ function_objects →
  invoke f initial_store kw = (ccall (fcomp f) kw, initial_store).
Proof.
  intros Hf. unfold invoke. f_equal.
  assert (HD : ∀ k v, defaults_now f initial_store !! k = Some v →
                      default_of (cparams (fcomp f)) k = Some v).
  { intros k v Hv. unfold defaults_now in Hv. rewrite lookup_omap in Hv.
    destruct (fdefaults f !! k) as [l|] eqn:El; [|discriminate].
    destruct (default_objects_declared f k l Hf El) as (Hd & _ & _).
    by rewrite Hd. }
  generalize dependent (defaults_now f initial_store). intros extra HD.
  unfold function_objects in Hf. rewrite !elem_of_cons, elem_of_nil in Hf.
  repeat (destruct Hf as [->|Hf]); [..|destruct Hf];
    cbv [fcomp bigquery_query_job_def bigquery_explain_forecast_model_job_def
         bigquery_export_model_job_def wait_gcp_resources_def] in HD |- *;
    unfold_call; cbv [cparams query_job explain_forecast_model export_model
                      wait_gcp] in HD;
    rewrite (check_keywords_union _ kw extra HD);
    rewrite !(bind_arg_union_declared _ kw extra _ HD);
    reflexivity.
Qed.

(** C6 as stated fails: a second invocation with the same arguments
    returns another specification once the caller has written to the
    labels dict that the first one handed out. *)
Lemma equal_arguments_different_specs :
  hands_out bigquery_query_job_def sample_query_inputs 3%positive
  ∧ (invoke bigquery_query_job_def initial_store sample_query_inputs).1
    ≠ (invoke bigquery_query_job_def
         (<[3%positive := labelled]>
            (invoke bigquery_query_job_def initial_store sample_query_inputs).2)
         sample_query_inputs).1.
Proof.
  split.
  - exists "labels". split; reflexivity.
  - intros Heq. vm_compute in Heq. discriminate Heq.
Qed.

(** C6, amended.  An invocation of any of the four functions leaves the
    store as it was, and what it returns depends on the keyword arguments
    and on what the default objects of the parameters left out hold: two
    invocations with the same arguments return the same result whenever
    these objects hold the same at both, and, when the call binds and the
    objects exist, only then. *)
Theorem invocations_agree_iff_defaults_agree (f : funobj)
    (σ1 σ2 : gmap positive pyval) (kw : gmap string pyval) :
  f ∈ function_objects →
  (invoke f σ1 kw).2 = σ1
  ∧ (agree_on_omitted f kw σ1 σ2 →
     (invoke f σ1 kw).1 = (invoke f σ2 kw).1)
  ∧ (accepts (cparams (fcomp f)) kw = true →
     holds_defaults f σ1 → holds_defaults f σ2 →
     (invoke f σ1 kw).1 = (invoke f σ2 kw).1 →
     agree_on_omitted f kw σ1 σ2).
Proof.
  intros Hf. split; [reflexivity|]. split.
  - intros Hagree. unfold invoke. simpl.
    by rewrite (bindings_agree f kw σ1 σ2 Hagree).
  - intros Hacc H1 H2 Heq name l Hl Hnone.
    destruct (H1 name l Hl) as [v1 Hv1]. destruct (H2 name l Hl) as [v2 Hv2].
    rewrite Hv1, Hv2. f_equal.
    destruct (default_objects_declared f name l Hf Hl)
      as (_ & _ & [[flag i] Hpos]).
    assert (Hs1 : (kw ∪ defaults_now f σ1) !! name = Some v1)
      by (by rewrite lookup_with_defaults, Hnone, Hl).
    assert (Hs2 : (kw ∪ defaults_now f σ2) !! name = Some v2)
      by (by rewrite lookup_with_defaults, Hnone, Hl).
    destruct (carried_value _ _ _ _ _ _ Hpos
                (accepts_with_defaults f σ1 kw Hf Hacc) Hs1)
      as (spec1 & Hspec1 & Hitem1).
    destruct (carried_value _ _ _ _ _ _ Hpos
                (accepts_with_defaults f σ2 kw Hf Hacc) Hs2)
      as (spec2 & Hspec2 & Hitem2).
    unfold invoke in Heq. simpl in Heq. rewrite Hspec1, Hspec2 in Heq.
    injection Heq as <-. rewrite Hitem1 in Hitem2. by injection Hitem2.
Qed.

Lemma invocations_agree_iff_defaults_agree_witness :
  bigquery_query_job_def ∈ function_objects
  ∧ agree_on_omitted bigquery_query_job_def sample_query_inputs
      initial_store written_elsewhere
  ∧ initial_store !! 1%positive ≠ written_elsewhere !! 1%positive
  ∧ (invoke bigquery_query_job_def initial_store sample_query_inputs).1
    = (invoke bigquery_query_job_def written_elsewhere sample_query_inputs).1.
Proof.
  assert (Hf : bigquery_query_job_def ∈ function_objects)
    by apply list_elem_of_here.
  assert (Hagree : agree_on_omitted bigquery_query_job_def sample_query_inputs
                     initial_store written_elsewhere).
  { intros name l Hl Hnone.
    cbv [fdefaults bigquery_query_job_def] in Hl.
    repeat (rewrite lookup_insert in Hl; case_decide;
            [injection Hl as <-; subst name|]);
      try (by rewrite lookup_empty in Hl);
      first [discriminate Hnone | reflexivity]. }
  assert (Hne : initial_store !! 1%positive ≠ written_elsewhere !! 1%positive)
    by (vm_compute; discriminate).
  destruct (invocations_agree_iff_defaults_agree bigquery_query_job_def
              initial_store written_elsewhere sample_query_inputs Hf)
    as (_ & Hif & _).
  exact (conj Hf (conj Hagree (conj Hne (Hif Hagree)))).
Defined.

(** [wait_gcp_resources] declares no default: what it returns does not
    depend on the store. *)
Lemma wait_gcp_resources_ignores_store (σ1 σ2 : gmap positive pyval)
    (kw : gmap string pyval) :
  (invoke wait_gcp_resources_def σ1 kw).1
  = (invoke wait_gcp_resources_def σ2 kw).1.
Proof.
  unfold invoke. simpl.
  rewrite (bindings_agree wait_gcp_resources_def kw σ1 σ2); [done|].
  intros name l Hl. cbv [fdefaults wait_gcp_resources_def] in Hl.
  by rewrite lookup_empty in Hl.
Qed.
